(** * Upload orchestration of the uploadthing client

    A shallow embedding of the client-side upload engine:
    [packages/uploadthing/src/client.ts] ([DANGEROUS__uploadFiles],
    [uploadFile]), [packages/uploadthing/src/internal/types.ts]
    ([isActionType], [isUploadThingHook]) and
    [packages/shared/src/effect.ts] ([fetchEff], [fetchEffJson],
    [exponentialBackoff]).

    The program is written against the Effect library.  An effect is
    embedded as a function on an explicit world (a millisecond clock and
    a chronological log of what the program did to the outside), with a
    failure channel and defects.  The loop of [Effect.retry] is embedded
    with a fuel argument.

    [fetchEffJson] is declared with the schema as its first parameter
    and called by the client with the URL first.  The embedding keeps
    both as they are written: the arguments are values that may be a
    string or a schema, and a string given as the schema makes
    [Schema.decode] throw while the effect is built. *)

From stdpp Require Import gmap strings list.

Local Open Scope string_scope.
Local Open Scope list_scope.
Local Set Warnings "-register-all".

(** ** Data model *)

(** A JSON value, as produced by [res.json()].  A JS object is a finite
    map from property names to values. *)
Inductive Json :=
| JNull
| JBool (b : bool)
| JNumber (n : Z)
| JString (s : string)
| JArray (xs : list Json)
| JObject (props : gmap string Json).

(** The part of a browser [File] that the engine reads. *)
Record File := mkFile { name : string; size : N }.

Inductive ContentDisposition := inline | attachment.

(** [PresignedBase]: the fields shared by both descriptor shapes. *)
Record PresignedBase := mkBase {
  key : string;
  fileName : string;
  fileUrl : string;
  pollingJwt : string;
  pollingUrl : string;
  contentDisposition : ContentDisposition;
  customId : option string;
  fileType : string
}.

(** [PSPResponse] and [MPUResponse]. *)
Record PSPFields := mkPSP { url : string; fields : gmap string string }.
Record MPUFields := mkMPU {
  urls : list string;
  uploadId : string;
  chunkSize : N;
  chunkCount : N
}.

(** One element of [PresignedURLs]: the union of the two shapes. *)
Inductive Presigned :=
| PSP (base : PresignedBase) (psp : PSPFields)
| MPU (base : PresignedBase) (mpu : MPUFields).

Definition baseOf (p : Presigned) : PresignedBase :=
  match p with PSP b _ => b | MPU b _ => b end.

(** ["urls" in presigned] *)
Definition has_urls (p : Presigned) : bool :=
  match p with PSP _ _ => false | MPU _ _ => true end.

(** [UploadFileResponse<TServerOutput>].  [serverData] is [None] when
    it is [undefined]. *)
Record UploadFileResponse := mkResponse {
  r_name : string;
  r_size : N;
  r_key : string;
  r_url : string;
  r_serverData : option Json
}.

(** ** Errors and exits *)

(** What travels on the failure channel or as a defect.  [TypeError]
    is the exception of the JS runtime; [TaggedError] stands for the
    tagged errors raised by the two transports, whose code is outside
    this development. *)
Inductive Err :=
| FetchError (input : string)
| ParseError
| RetryError
| UploadThingError (code message cause : string)
| TaggedError (tag : string)
| TypeError.

(** The [_tag] of an error; a [TypeError] has none. *)
Definition err_tag (e : Err) : option string :=
  match e with
  | FetchError _ => Some "FetchError"
  | ParseError => Some "ParseError"
  | RetryError => Some "RetryError"
  | UploadThingError _ _ _ => Some "UploadThingError"
  | TaggedError t => Some t
  | TypeError => None
  end.

(** [e instanceof RetryError] *)
Definition isRetryError (e : Err) : bool :=
  match e with RetryError => true | _ => false end.

(** A cause is an expected failure ([Effect.fail]) or a defect
    ([Effect.die], or an exception thrown inside [Effect.gen]). *)
Inductive Cause := Fail (e : Err) | Die (e : Err).

Inductive Exit (A : Type) :=
| Success (a : A)
| Failure (c : Cause).
Arguments Success {A} a.
Arguments Failure {A} c.

(** ** The world *)

(** [RequestInit], as far as the engine fills it in; the body is the
    text that [JSON.stringify] returns. *)
Record RequestInit := mkInit {
  method : option string;
  headers : list (string * string);
  body : option string
}.

Inductive Transport := SinglePart | MultiPart.

(** What is done to the outside.  [EvTransport] is for the transports
    of the sample runs to leave a trace; the engine does not log it. *)
Inductive Event :=
| EvFetch (input : string) (init : RequestInit)
| EvSleep (ms : N)
| EvConsoleError (msg : string) (p : Presigned)
| EvUploadBegin (file : string)
| EvTransport (t : Transport) (f : File) (p : Presigned)
| EvLogError (c : Cause).

(** The clock in milliseconds and the log, oldest entry first; an
    entry carries the time at which the action started. *)
Record World := mkWorld { now : N; log : list (N * Event) }.

(** What [fetch] and [res.json()] give back: the promise of [fetch]
    rejects, the body is not JSON, or the body parses. *)
Inductive Response :=
| NetworkError
| NotJson
| JsonBody (j : Json).

Definition isFetchTo (input : string) (e : N * Event) : bool :=
  match e.2 with
  | EvFetch i _ => bool_decide (i = input)
  | _ => false
  end.

(** How many requests the log holds for an input. *)
Definition fetchCount (input : string) (l : list (N * Event)) : nat :=
  length (filter (fun e => isFetchTo input e = true) l).

(** ** Effects *)

(** An effect maps a world to an exit and a new world; [None] is the
    retry loop out of fuel, or a collaborator that does not return. *)
Definition Eff (A : Type) : Type := World -> option (Exit A * World).

Definition succeed {A} (a : A) : Eff A := fun w => Some (Success a, w).
Definition fail {A} (e : Err) : Eff A := fun w => Some (Failure (Fail e), w).
Definition die {A} (e : Err) : Eff A := fun w => Some (Failure (Die e), w).

(** [Effect.andThen] / [yield*] *)
Definition andThen {A B} (m : Eff A) (f : A -> Eff B) : Eff B :=
  fun w =>
    match m w with
    | None => None
    | Some (Success a, w1) => f a w1
    | Some (Failure c, w1) => Some (Failure c, w1)
    end.

Notation "'let*' x := m 'in' k" := (andThen m (fun x => k))
  (at level 10, x name, m at level 100, k at level 200).
Notation "m ;; k" := (andThen m (fun _ => k))
  (at level 100, k at level 200, right associativity).

Definition emit (ev : Event) (w : World) : World :=
  mkWorld (now w) (log w ++ [(now w, ev)]).

Definition advance (ms : N) (w : World) : World :=
  mkWorld (now w + ms) (log w).

Definition tell (ev : Event) : Eff unit :=
  fun w => Some (Success tt, emit ev w).

(** [Effect.sleep(ms)] *)
Definition sleep (ms : N) : Eff unit :=
  fun w => Some (Success tt, advance ms (emit (EvSleep ms) w)).

(** ** The options of a call and the collaborators *)

(** The [input] property of the options: absent, or present with a
    value that may be [undefined]. *)
Inductive InputField :=
| NoInput
| Input (v : option Json).

(** [UploadFilesOptions].  A callback is absent or a function; what a
    call of it returns here is the exception that it throws, if any. *)
Record UploadFilesOptions := mkOpts {
  onUploadProgress : option (string -> N -> option Err);
  onUploadBegin : option (string -> option Err);
  files : list File;
  opts_url : string;
  package : string;
  input : InputField
}.

(** The collaborators of the engine.  [fetch input init n] answers the
    request number [n] (from 0) to [input] with a latency and a
    response.  The two transports, [uploadThingResponseSchema] and
    [createAPIRequestUrl] live in modules outside this development and
    are taken as given, the transports as effects of their own that
    receive what the engine passes them; [JSON_stringify] is the one
    of the runtime. *)
Record Env := mkEnv {
  fetch : string -> RequestInit -> nat -> N * Response;
  uploadPresignedPostWithProgress :
    File -> Presigned -> UploadFilesOptions -> Eff unit;
  uploadMultipartWithProgress :
    File -> Presigned -> string -> UploadFilesOptions -> Eff unit;
  uploadThingResponseSchema : Json -> option (list Presigned);
  createAPIRequestUrl : string -> string -> string -> string;
  JSON_stringify : Json -> string
}.

(** ** [packages/shared/src/effect.ts] *)

(** An argument of [fetchEffJson] as the callers give it: a string or
    a schema. *)
Inductive Value (Res : Type) :=
| VString (s : string)
| VSchema (decoder : Json -> option Res).
Arguments VString {Res} s.
Arguments VSchema {Res} decoder.

(** What calling a function gives: it throws, or it returns. *)
Inductive Thrown (A : Type) :=
| Throws (e : Err)
| Returns (a : A).
Arguments Throws {A} e.
Arguments Returns {A} a.

(** [String(input)] of a request input; an object without a
    [toString] of its own prints as [[object Object]]. *)
Definition requestInput {Res} (input : Value Res) : string :=
  match input with
  | VString s => s
  | VSchema _ => "[object Object]"
  end.

Section Shared.
Context (env : Env).

(** [fetchEff]: the request goes to [fetch] of the fetch context with
    the base headers (none are provided by the client) under those of
    [init].  A rejected promise becomes a [FetchError]. *)
Definition fetchEff (input : string) (init : RequestInit) : Eff Response :=
  fun w =>
    let '(latency, res) := fetch env input init (fetchCount input (log w)) in
    let w1 := advance latency (emit (EvFetch input init) w) in
    match res with
    | NetworkError => Some (Failure (Fail (FetchError input)), w1)
    | _ => Some (Success res, w1)
    end.

(** [res.json()] under [Effect.tryPromise] *)
Definition json (input : string) (res : Response) : Eff Json :=
  match res with
  | JsonBody j => succeed j
  | _ => fail (FetchError input)
  end.

(** The effect that [Schema.decode(schema)] returns *)
Definition decode {Res} (schema : Json -> option Res) (j : Json) : Eff Res :=
  match schema j with
  | Some r => succeed r
  | None => fail ParseError
  end.

(** [fetchEffJson(schema, input, init)].  The pipe is built when the
    function is called: [Schema.decode(schema)] is evaluated then, and
    throws a [TypeError] when [schema] is a string. *)
Definition fetchEffJson {Res} (schema input : Value Res)
    (init : RequestInit) : Thrown (Eff Res) :=
  match schema with
  | VString _ => Throws TypeError
  | VSchema decoder =>
      Returns (let* res := fetchEff (requestInput input) init in
               let* j := json (requestInput input) res in
               decode decoder j)
  end.

End Shared.

(** An effect built inside [Effect.gen]: a throw while it is built is
    a defect of the generator. *)
Definition built {A} (x : Thrown (Eff A)) : Eff A :=
  match x with
  | Throws e => die e
  | Returns eff => eff
  end.

(** ** Schedules *)

(** The decision of one schedule step: stop, or recur no earlier than
    [start] (the start of the interval; its end is never read by the
    driver of [retry]). *)
Inductive ScheduleDecision := Done | Continue (start : N).

(** [Schedule<Env, In, Out>]: an initial state and a step from the
    current time, an input and a state. *)
Record Schedule (In Out : Type) := mkSchedule {
  St : Type;
  initial : St;
  step : N -> In -> St -> St * Out * ScheduleDecision
}.
Arguments mkSchedule {In Out} St initial step.
Arguments St {In Out} s.
Arguments initial {In Out} s.
Arguments step {In Out} s.

Module Schedule.
Section Combinators.
Context {In : Type}.

(** [Schedule.unfold(initial, f)] *)
Definition unfold {A} (init : A) (f : A -> A) : Schedule In A :=
  mkSchedule A init (fun now _ s => (f s, s, Continue now)).

(** [Schedule.forever]: counts the recurrences, never stops. *)
Definition forever : Schedule In N := unfold 0%N N.succ.

(** [Schedule.map] *)
Definition map {Out Out2} (self : Schedule In Out) (f : Out -> Out2)
    : Schedule In Out2 :=
  mkSchedule (St self) (initial self) (fun now i s =>
    let '(s', out, d) := step self now i s in (s', f out, d)).

(** [Schedule.modifyDelay]: the interval is moved so that it starts
    [f out delay] after [now]. *)
Definition modifyDelay {Out} (self : Schedule In Out) (f : Out -> N -> N)
    : Schedule In Out :=
  mkSchedule (St self) (initial self) (fun now i s =>
    let '(s', out, d) := step self now i s in
    match d with
    | Done => (s', out, Done)
    | Continue start => (s', out, Continue (now + f out (start - now)))
    end)%N.

(** [Schedule.addDelay] *)
Definition addDelay {Out} (self : Schedule In Out) (f : Out -> N)
    : Schedule In Out :=
  modifyDelay self (fun out delay => delay + f out)%N.

(** [Schedule.delayedSchedule]: the output is the delay. *)
Definition delayedSchedule (self : Schedule In N) : Schedule In N :=
  addDelay self (fun x => x).

(** [Schedule.exponential(base, factor)]: always recurs, waiting
    [base * factor^n]. *)
Definition exponential (base factor : N) : Schedule In N :=
  delayedSchedule (map forever (fun i => base * factor ^ i)%N).

(** [Schedule.spaced(duration)] *)
Definition spaced (duration : N) : Schedule In N :=
  addDelay forever (fun _ => duration).

(** [Schedule.andThenEither]: [self] until it is done, then [that]. *)
Definition andThenEither {Out Out2} (that : Schedule In Out2)
    (self : Schedule In Out) : Schedule In (Out + Out2) :=
  mkSchedule (St self * St that * bool)
    (initial self, initial that, true)
    (fun now i '(ls, rs, onLeft) =>
      if onLeft then
        let '(ls', out, d) := step self now i ls in
        match d with
        | Done =>
            let '(rs', out2, d2) := step that now i rs in
            ((ls', rs', false), inr out2, d2)
        | Continue _ => ((ls', rs, true), inl out, d)
        end
      else
        let '(rs', out2, d2) := step that now i rs in
        ((ls, rs', false), inr out2, d2)).

(** [Schedule.compose]: the output of [self] is the input of [that];
    of the two intervals the later one is kept. *)
Definition compose {Out Out2} (that : Schedule Out Out2)
    (self : Schedule In Out) : Schedule In Out2 :=
  mkSchedule (St self * St that) (initial self, initial that)
    (fun now i '(ls, rs) =>
      let '(ls', out, ld) := step self now i ls in
      let '(rs', out2, rd) := step that now out rs in
      match ld, rd with
      | Continue l, Continue r =>
          ((ls', rs'), out2, Continue (if (l <? r)%N then r else l))
      | _, _ => ((ls', rs'), out2, Done)
      end).

(** [Schedule.elapsed]: the time since the first step. *)
Definition elapsed : Schedule In N :=
  mkSchedule (option N) None (fun now _ s =>
    match s with
    | None => (Some now, 0, Continue now)
    | Some start => (Some start, now - start, Continue now)
    end)%N.

(** [Schedule.check] *)
Definition check {Out} (test : In -> Out -> bool) (self : Schedule In Out)
    : Schedule In Out :=
  mkSchedule (St self) (initial self) (fun now i s =>
    let '(s', out, d) := step self now i s in
    match d with
    | Done => (s', out, Done)
    | Continue _ => if test i out then (s', out, d) else (s', out, Done)
    end).

(** [Schedule.whileOutput] and [Schedule.whileInput] *)
Definition whileOutput {Out} (f : Out -> bool) (self : Schedule In Out) :=
  check (fun _ out => f out) self.
Definition whileInput {Out} (f : In -> bool) (self : Schedule In Out) :=
  check (fun i _ => f i) self.

End Combinators.
End Schedule.

(** [exponentialBackoff]: "retries with exponential backoff, up to 1
    minute. 10ms * 4^n, where n is the number of retries". *)
Definition exponentialBackoff {In} : Schedule In N :=
  Schedule.whileOutput (fun d => d <=? 60000)%N
    (Schedule.compose Schedule.elapsed
      (Schedule.andThenEither (Schedule.spaced 1000)
        (Schedule.exponential 10 4))).

(** ** [Effect.retry] *)

(** The driver waits for the start of the interval. *)
Definition sleepUntil (start : N) : Eff unit :=
  fun w => if (start <=? now w)%N then Some (Success tt, w)
           else sleep (start - now w) w.

(** [Effect.retry(self, policy)]: run [self]; a failure is given to the
    schedule, which either ends the loop with that failure or has the
    driver wait and the loop go round again.  Defects are not caught. *)
Fixpoint retryLoop {A Out} (fuel : nat) (self : Eff A)
    (policy : Schedule Err Out) (st : St policy) : Eff A :=
  fun w =>
    match fuel with
    | O => None
    | S fuel' =>
        match self w with
        | None => None
        | Some (Success a, w1) => Some (Success a, w1)
        | Some (Failure (Die e), w1) => Some (Failure (Die e), w1)
        | Some (Failure (Fail e), w1) =>
            match step policy (now w1) e st with
            | (_, _, Done) => Some (Failure (Fail e), w1)
            | (st', _, Continue start) =>
                match sleepUntil start w1 with
                | Some (_, w2) => retryLoop fuel' self policy st' w2
                | None => None
                end
            end
        end
    end.

(** [Effect.retry({ while, schedule })] *)
Definition retry {A Out} (fuel : nat) (while : Err -> bool)
    (schedule : Schedule Err Out) (self : Eff A) : Eff A :=
  let policy := Schedule.whileInput while schedule in
  retryLoop fuel self policy (initial policy).

(** ** [packages/uploadthing/src/client.ts] *)

(** The schema [PollingResponse] of [uploadFile]: a union of two
    structs.  [callbackData] is [None] when it is [undefined]. *)
Inductive PollingResponse :=
| PollDone (callbackData : option Json)
| PollStillWaiting.

(** [S.struct({ status: S.literal("done"), callbackData: S.any })]:
    [S.any] accepts the property being absent. *)
Definition decodeDone (j : Json) : option PollingResponse :=
  match j with
  | JObject o =>
      match o !! "status" with
      | Some (JString s) =>
          if bool_decide (s = "done")
          then Some (PollDone (o !! "callbackData")) else None
      | _ => None
      end
  | _ => None
  end.

(** [S.struct({ status: S.literal("still waiting") })] *)
Definition decodeStillWaiting (j : Json) : option PollingResponse :=
  match j with
  | JObject o =>
      match o !! "status" with
      | Some (JString s) =>
          if bool_decide (s = "still waiting") then Some PollStillWaiting
          else None
      | _ => None
      end
  | _ => None
  end.

(** [S.union]: the first member that decodes. *)
Definition PollingResponse_schema (j : Json) : option PollingResponse :=
  match decodeDone j with
  | Some r => Some r
  | None => decodeStillWaiting j
  end.

(** [opts.files.join(",")]: a [File] prints as [[object File]]. *)
Definition joinFiles (fs : list File) : string :=
  String.concat "," (List.map (fun _ => "[object File]") fs).

Definition notFound (presigned : Presigned) (fs : list File) : Err :=
  UploadThingError "NOT_FOUND" "No file found for presigned URL"
    ("Expected file with name " +:+ fileName (baseOf presigned)
       +:+ " but got '" +:+ joinFiles fs +:+ "'").

(** [{ headers: { authorization: presigned.pollingJwt } }] *)
Definition pollingInit (presigned : Presigned) : RequestInit :=
  mkInit None [("authorization", pollingJwt (baseOf presigned))] None.

(** [opts.files.find((f) => f.name === presigned.fileName)] *)
Definition findFile (opts : UploadFilesOptions) (presigned : Presigned)
    : option File :=
  List.find (fun f => bool_decide (name f = fileName (baseOf presigned)))
    (files opts).

(** [opts.onUploadBegin?.({ file })]: the call is logged; an exception
    of the callback is a defect of the generator. *)
Definition callBegin (opts : UploadFilesOptions) (file : string) : Eff unit :=
  match onUploadBegin opts with
  | None => succeed tt
  | Some callback =>
      fun w =>
        match callback file with
        | None => Some (Success tt, emit (EvUploadBegin file) w)
        | Some e => Some (Failure (Die e), emit (EvUploadBegin file) w)
        end
  end.

Section Client.
Context (fuel : nat) (env : Env).

Definition uploadFile (slug : string) (opts : UploadFilesOptions)
    (presigned : Presigned) : Eff UploadFileResponse :=
  match findFile opts presigned with
  | None =>
      tell (EvConsoleError "No file found for presigned URL" presigned) ;;
      fail (notFound presigned (files opts))
  | Some file =>
      callBegin opts (name file) ;;
      (if has_urls presigned
       then uploadMultipartWithProgress env file presigned slug opts
       else uploadPresignedPostWithProgress env file presigned opts) ;;
      sleep 500 ;;
      let* serverData :=
        match fetchEffJson env (VString (pollingUrl (baseOf presigned)))
                (VSchema PollingResponse_schema) (pollingInit presigned) with
        | Throws e => die e
        | Returns request =>
            retry fuel isRetryError exponentialBackoff
              (let* res := request in
               match res with
               | PollDone callbackData => succeed callbackData
               | PollStillWaiting => fail RetryError
               end)
        end in
      succeed {| r_name := name file;
                 r_size := size file;
                 r_key := key (baseOf presigned);
                 r_serverData := serverData;
                 r_url := "https://utfs.io/f/" +:+ key (baseOf presigned) |}
  end.

(** [Effect.all] over a list, without options: one effect after the
    other, stopping at the first that fails. *)
Fixpoint all {A} (effs : list (Eff A)) : Eff (list A) :=
  match effs with
  | [] => succeed []
  | e :: es =>
      let* a := e in
      let* rest := all es in
      succeed (a :: rest)
  end.

(** The object that is given to [JSON.stringify]: [input] is [null]
    when the options have no such property, and a property whose value
    is [undefined] is left out. *)
Definition uploadRequestBody (opts : UploadFilesOptions) : Json :=
  let fileList :=
    JArray (List.map (fun f =>
              JObject {[ "name" := JString (name f);
                         "size" := JNumber (Z.of_N (size f)) ]})
              (files opts)) in
  match input opts with
  | NoInput => JObject {[ "input" := JNull; "files" := fileList ]}
  | Input (Some i) => JObject {[ "input" := i; "files" := fileList ]}
  | Input None => JObject {[ "files" := fileList ]}
  end.

(** The generator [uploadFiles] of [DANGEROUS__uploadFiles]. *)
Definition uploadFiles (endpoint : string) (opts : UploadFilesOptions)
    : Eff (list UploadFileResponse) :=
  let* presigneds :=
    built (fetchEffJson env
             (VString (createAPIRequestUrl env (opts_url opts) endpoint
                         "upload"))
             (VSchema (uploadThingResponseSchema env))
             (mkInit (Some "POST") [("Content-Type", "application/json")]
                (Some (JSON_stringify env (uploadRequestBody opts))))) in
  all (List.map (fun presigned => uploadFile endpoint opts presigned)
         presigneds).

(** [Effect.catchTag]: failures with the tag are handed to the
    handler; defects pass. *)
Definition catchTag {A} (tag : string) (h : Err -> Eff A) (self : Eff A)
    : Eff A :=
  fun w =>
    match self w with
    | Some (Failure (Fail e), w1) =>
        if bool_decide (err_tag e = Some tag) then h e w1
        else Some (Failure (Fail e), w1)
    | r => r
    end.

(** [Effect.tapErrorCause] *)
Definition tapErrorCause {A} (f : Cause -> Eff unit) (self : Eff A)
    : Eff A :=
  fun w =>
    match self w with
    | Some (Failure c, w1) =>
        match f c w1 with
        | Some (Success _, w2) => Some (Failure c, w2)
        | Some (Failure c', w2) => Some (Failure c', w2)
        | None => None
        end
    | r => r
    end.

(** [Effect.logError] *)
Definition logError (c : Cause) : Eff unit := tell (EvLogError c).

(** [DANGEROUS__uploadFiles]: the exit of the effect is the outcome of
    the promise of [Effect.runPromise]. *)
Definition DANGEROUS__uploadFiles (endpoint : string)
    (opts : UploadFilesOptions) : Eff (list UploadFileResponse) :=
  tapErrorCause logError
    (catchTag "UTReporterError" (fun error => die error)
       (uploadFiles endpoint opts)).

End Client.

(** ** [packages/uploadthing/src/internal/types.ts] *)

(** [VALID_ACTION_TYPES] *)
Definition VALID_ACTION_TYPES : list string :=
  ["upload"; "failure"; "multipart-complete"].

(** [isActionType].  The input is of type [unknown]; a JSON value
    stands for it.  [includes] compares strings for equality. *)
Definition isActionType (input : Json) : bool :=
  match input with
  | JString s => bool_decide (s ∈ VALID_ACTION_TYPES)
  | _ => false
  end.

(** [VALID_UT_HOOKS] *)
Definition VALID_UT_HOOKS : list string := ["callback"].

(** [isUploadThingHook] *)
Definition isUploadThingHook (input : Json) : bool :=
  match input with
  | JString s => bool_decide (s ∈ VALID_UT_HOOKS)
  | _ => false
  end.

(** ** Observing a schedule *)

(** The waits that a schedule asks for when it is stepped at the given
    times with the same input; [None] is the step at which it stops. *)
Fixpoint delays {In Out} (policy : Schedule In Out) (st : St policy)
    (i : In) (times : list N) : list (option N) :=
  match times with
  | [] => []
  | t :: ts =>
      match step policy t i st with
      | (_, _, Done) => [None]
      | (st', _, Continue start) =>
          Some (start - t)%N :: delays policy st' i ts
      end
  end.

(** ** What a pipeline does around its transport *)

(** The callback of [opts.onUploadBegin?.(..)] returns for this file. *)
Definition beginReturns (opts : UploadFilesOptions) (file : File) : Prop :=
  forall callback,
    onUploadBegin opts = Some callback -> callback (name file) = None.

(** The world in which the callback, if there is one, has been called
    with the name of the file. *)
Definition begun (opts : UploadFilesOptions) (file : File) (w : World)
    : World :=
  match onUploadBegin opts with
  | Some _ => emit (EvUploadBegin (name file)) w
  | None => w
  end.

(** What [uploadFile] makes of the outcome of its transport: a failure
    is passed on; after a success it waits 500 ms and calls
    [fetchEffJson] with the URL where the schema belongs. *)
Definition afterTransport {A} (r : option (Exit unit * World))
    : option (Exit A * World) :=
  match r with
  | None => None
  | Some (Success _, w2) =>
      Some (Failure (Die TypeError), advance 500 (emit (EvSleep 500) w2))
  | Some (Failure c, w2) => Some (Failure c, w2)
  end.

(** ** Sample data *)

Definition stillWaitingBody : Response :=
  JsonBody (JObject {[ "status" := JString "still waiting" ]}).

Definition doneBody (callbackData : Json) : Response :=
  JsonBody (JObject {[ "status" := JString "done";
                       "callbackData" := callbackData ]}).

Definition fileA : File := mkFile "a.png" 3.
Definition fileB : File := mkFile "b.png" 5.

Definition presignedA : Presigned :=
  PSP (mkBase "keyA" "a.png" "https://files.example/a" "jwtA"
         "https://poll.example/a" inline None "image")
      (mkPSP "https://bucket.example/a" ∅).

Definition presignedB : Presigned :=
  MPU (mkBase "keyB" "b.png" "https://files.example/b" "jwtB"
         "https://poll.example/b" inline None "image")
      (mkMPU ["https://bucket.example/b/1"] "uploadB" 5 1).

(** A descriptor for a file that the caller did not supply. *)
Definition presignedC : Presigned :=
  PSP (mkBase "keyC" "c.png" "https://files.example/c" "jwtC"
         "https://poll.example/c" inline None "image")
      (mkPSP "https://bucket.example/c" ∅).

(** Two files, a begin callback that returns, no [input]. *)
Definition sampleOpts : UploadFilesOptions :=
  mkOpts None (Some (fun _ => None)) [fileA; fileB]
    "https://app.example/api/uploadthing" "@uploadthing/react" NoInput.

(** The exception of a callback that throws. *)
Definition callbackError : Err := TaggedError "CallbackError".

(** The same with a begin callback that throws. *)
Definition throwingOpts : UploadFilesOptions :=
  mkOpts None (Some (fun _ => Some callbackError)) [fileA; fileB]
    "https://app.example/api/uploadthing" "@uploadthing/react" NoInput.

Definition start : World := mkWorld 0 [].

(** The name of no file. *)
Definition nobody : string := EmptyString.

(** The error of a transport that fails. *)
Definition uploadFailed : Err :=
  UploadThingError "UPLOAD_FAILED" "Failed to upload file" nobody.

(** A transport that takes 100 ms, leaves a trace and fails for the
    file named [failing]. *)
Definition sampleTransport (t : Transport) (failing : string) (f : File)
    (p : Presigned) : Eff unit :=
  fun w =>
    let w1 := advance 100 (emit (EvTransport t f p) w) in
    if bool_decide (name f = failing)
    then Some (Failure (Fail uploadFailed), w1)
    else Some (Success tt, w1).

(** A server that hands out the descriptors [ps] and answers the
    request number [n] to a polling URL with [answer n]. *)
Definition serverEnv (answer : nat -> N * Response) (failing : string)
    (ps : list Presigned) : Env :=
  mkEnv
    (fun input _ n =>
       if bool_decide (input = "https://app.example/api/uploadthing")
       then (0%N, JsonBody JNull)
       else answer n)
    (fun f p _ => sampleTransport SinglePart failing f p)
    (fun f p _ _ => sampleTransport MultiPart failing f p)
    (fun _ => Some ps)
    (fun url _ _ => url)
    (fun _ => "{}").

(** [still waiting] to the first [k] polls, then [done] with the
    payload, each at once. *)
Definition doneAfter (k : nat) (callbackData : Json) (n : nat)
    : N * Response :=
  (0%N, if bool_decide (n < k) then stillWaitingBody
        else doneBody callbackData).

(** [still waiting] for ever, each answer after [latency]. *)
Definition neverDone (latency : N) (n : nat) : N * Response :=
  (latency, stillWaitingBody).

(** The same response to every poll. *)
Definition always (r : Response) (n : nat) : N * Response := (0%N, r).

(** A response with a status that is neither of the two. *)
Definition failedBody : Response :=
  JsonBody (JObject {[ "status" := JString "failed" ]}).

(** The world after the transport of [a.png] and the delay. *)
Definition delayedA : World :=
  mkWorld 600
    [(0%N, EvUploadBegin "a.png");
     (0%N, EvTransport SinglePart fileA presignedA);
     (100%N, EvSleep 500)].

(** * Properties *)

(** ** The backoff schedule *)

(** One step of [exponentialBackoff] while its left schedule is the
    active one. *)
Lemma exponentialBackoff_step (In : Type) (t : N) (i : In) (n m : N)
    (s : option N) :
  step (@exponentialBackoff In) t i ((n, m, true), s)
  = (((N.succ n, m, true), Some (default t s)),
     (t - default t s)%N,
     if (t - default t s <=? 60000)%N
     then Continue (t + 10 * 4 ^ n) else Done).
Proof.
  cbv [exponentialBackoff Schedule.whileOutput Schedule.check
    Schedule.compose Schedule.andThenEither Schedule.exponential
    Schedule.delayedSchedule Schedule.addDelay Schedule.modifyDelay
    Schedule.map Schedule.forever Schedule.unfold Schedule.elapsed
    step St initial].
  replace (t + (t - t + 10 * 4 ^ n))%N with (t + 10 * 4 ^ n)%N by lia.
  assert (Hlt : ((t + 10 * 4 ^ n <? t) = false)%N) by (apply N.ltb_ge; lia).
  destruct s as [t0|]; cbn [default]; rewrite ?N.sub_diag, Hlt;
    destruct (_ <=? 60000)%N eqn:Hle; reflexivity.
Qed.

(** Steps within a minute of the first, then one beyond. *)
Lemma delays_exponentialBackoff (In : Type) (i : In) (t0 t : N)
    (times : list N) (n m : N) :
  Forall (fun t => t0 <= t <= t0 + 60000)%N times ->
  (t0 + 60000 < t)%N ->
  delays (@exponentialBackoff In) ((n, m, true), Some t0) i (times ++ [t])
  = imap (fun j _ => Some (10 * 4 ^ (n + N.of_nat j))%N) times ++ [None].
Proof.
  intros Hall Ht. revert n.
  induction times as [|t1 times IH]; intros n; cbn [app delays imap];
    rewrite exponentialBackoff_step; cbn [default id].
  - by assert ((t - t0 <=? 60000)%N = false) as -> by (apply N.leb_gt; lia).
  - apply Forall_cons in Hall as [Ht1 Hall].
    assert ((t1 - t0 <=? 60000)%N = true) as -> by (apply N.leb_le; lia).
    cbn [app]. f_equal.
    + f_equal. rewrite N.add_0_r. lia.
    + rewrite (IH Hall (N.succ n)). f_equal. apply imap_ext.
      intros j x _. cbn [compose]. do 3 f_equal. lia.
Qed.

(** No wait of the exponential schedule is one second. *)
Lemma backoff_never_spaced (j : N) : (10 * 4 ^ j <> 1000)%N.
Proof.
  destruct (decide (j < 4)%N) as [Hj|Hj].
  - assert (j = 0 \/ j = 1 \/ j = 2 \/ j = 3)%N as [-> | [-> | [-> | ->]]] by lia;
      discriminate.
  - assert (4 ^ 4 <= 4 ^ j)%N by (apply N.pow_le_mono_r; lia).
    change (4 ^ 4)%N with 256%N in *. lia.
Qed.

(** C4, what the code does.  Stepped at times within a minute of its
    first step, [exponentialBackoff] asks for the waits 10 ms, 40 ms,
    160 ms, ...: step [j] waits [10 * 4^j] ms, however many steps
    there are, and the first step later than that ends the schedule.
    [Schedule.exponential] never ends, so the schedule of
    [Schedule.spaced] is never reached: no wait is 1 s. *)
Theorem C4_backoff_delays (In : Type) (i : In) (t0 t : N) (times : list N) :
  Forall (fun t => t0 <= t <= t0 + 60000)%N times ->
  (t0 + 60000 < t)%N ->
  delays (@exponentialBackoff In) (initial exponentialBackoff) i
    (t0 :: times ++ [t])
  = imap (fun j _ => Some (10 * 4 ^ N.of_nat j)%N) (t0 :: times) ++ [None]
  /\ forall j : N, (10 * 4 ^ j <> 1000)%N.
Proof.
  intros Hall Ht. split; [|apply backoff_never_spaced].
  change (initial (@exponentialBackoff In)) with ((0%N, 0%N, true), @None N).
  cbn [delays]. rewrite exponentialBackoff_step. cbn [default id].
  rewrite N.sub_diag. cbn [N.leb N.compare imap app]. f_equal.
  - f_equal. lia.
  - rewrite (delays_exponentialBackoff In i t0 t times _ _ Hall Ht).
    f_equal. apply imap_ext. intros j x _. cbn [compose]. do 3 f_equal. lia.
Qed.

(** The steps of a poller whose server answers [still waiting] at
    once. *)
Lemma C4_backoff_delays_witness :
  delays (@exponentialBackoff Err) (initial exponentialBackoff) RetryError
    (0 :: [10; 50; 210; 850; 3410; 13650; 54610] ++ [218450])%N
  = imap (fun j _ => Some (10 * 4 ^ N.of_nat j)%N)
      (0 :: [10; 50; 210; 850; 3410; 13650; 54610])%N ++ [None]
  /\ forall j : N, (10 * 4 ^ j <> 1000)%N.
Proof.
  apply (C4_backoff_delays Err RetryError 0%N 218450%N
           [10; 50; 210; 850; 3410; 13650; 54610]%N).
  - repeat constructor; lia.
  - lia.
Defined.

(** The waits of the first eight retries. *)
Example backoff_waits :
  delays (@exponentialBackoff Err) (initial exponentialBackoff) RetryError
    [0; 10; 50; 210; 850; 3410; 13650; 54610; 218450]%N
  = [Some 10; Some 40; Some 160; Some 640; Some 2560; Some 10240;
     Some 40960; Some 163840; None]%N.
Proof. vm_compute. reflexivity. Qed.

(** ** [fetchEffJson] *)

(** X1.  Called as it is declared, [fetchEffJson] builds an effect
    that issues exactly one request and then: fails with a
    [FetchError] of the input when the request is rejected or the body
    is not JSON, fails with a [ParseError] when the schema rejects the
    body, succeeds with the decoded value otherwise.  Called as the
    client calls it, with the URL first, it throws a [TypeError]. *)
Theorem fetchEffJson_outcome {Res} (env : Env) (input : string)
    (schema : Json -> option Res) (init : RequestInit) :
  (exists request,
     fetchEffJson env (VSchema schema) (VString input) init = Returns request
     /\ forall w,
          request w
          = Some (match (fetch env input init (fetchCount input (log w))).2 with
                  | JsonBody j => match schema j with
                                  | Some r => Success r
                                  | None => Failure (Fail ParseError)
                                  end
                  | _ => Failure (Fail (FetchError input))
                  end,
                  advance (fetch env input init (fetchCount input (log w))).1
                    (emit (EvFetch input init) w)))
  /\ fetchEffJson env (VString input) (VSchema schema) init = Throws TypeError.
Proof.
  split; [|reflexivity].
  eexists. split; [reflexivity|]. intros w.
  cbn [requestInput]. unfold andThen at 1 2. unfold fetchEff.
  destruct (fetch env input init (fetchCount input (log w)))
    as [latency [| |j]]; cbn [fst snd]; try reflexivity.
  unfold json, succeed, decode. by destruct (schema j).
Qed.

(** ** The pipeline of one file *)

(** A descriptor that no file matches: an error on the console and
    the failure [NOT_FOUND], nothing else. *)
Lemma uploadFile_notFound (fuel : nat) (env : Env) (slug : string)
    (opts : UploadFilesOptions) (presigned : Presigned) (w : World) :
  findFile opts presigned = None ->
  uploadFile fuel env slug opts presigned w
  = Some (Failure (Fail (notFound presigned (files opts))),
          emit (EvConsoleError "No file found for presigned URL" presigned) w).
Proof. intros Hfind. unfold uploadFile. by rewrite Hfind. Qed.

(** The callback throws: a defect, and no transport. *)
Lemma uploadFile_begin_throws (fuel : nat) (env : Env) (slug : string)
    (opts : UploadFilesOptions) (presigned : Presigned) (file : File)
    (callback : string -> option Err) (e : Err) (w : World) :
  findFile opts presigned = Some file ->
  onUploadBegin opts = Some callback ->
  callback (name file) = Some e ->
  uploadFile fuel env slug opts presigned w
  = Some (Failure (Die e), emit (EvUploadBegin (name file)) w).
Proof.
  intros Hfind Hcb He. unfold uploadFile. rewrite Hfind.
  unfold andThen at 1, callBegin. by rewrite Hcb, He.
Qed.

Lemma callBegin_returns (opts : UploadFilesOptions) (file : File)
    (w : World) :
  beginReturns opts file ->
  callBegin opts (name file) w = Some (Success tt, begun opts file w).
Proof.
  intros Hret. unfold callBegin, begun.
  destruct (onUploadBegin opts) as [callback|] eqn:Hcb; [|done].
  by rewrite (Hret callback).
Qed.

(** The callback returns: the pipeline is its transport, run in the
    world after the callback, and what [afterTransport] makes of it. *)
Lemma uploadFile_found (fuel : nat) (env : Env) (slug : string)
    (opts : UploadFilesOptions) (presigned : Presigned) (file : File)
    (w : World) :
  findFile opts presigned = Some file ->
  beginReturns opts file ->
  uploadFile fuel env slug opts presigned w
  = afterTransport
      ((if has_urls presigned
        then uploadMultipartWithProgress env file presigned slug opts
        else uploadPresignedPostWithProgress env file presigned opts)
         (begun opts file w)).
Proof.
  intros Hfind Hret. unfold uploadFile. rewrite Hfind.
  unfold andThen at 1. rewrite (callBegin_returns _ _ _ Hret).
  unfold andThen at 1.
  destruct ((if has_urls presigned
             then uploadMultipartWithProgress env file presigned slug opts
             else uploadPresignedPostWithProgress env file presigned opts)
              (begun opts file w)) as [[[[]|c] w2]|]; reflexivity.
Qed.


(** The callback of the sample options returns. *)
Lemma sampleOpts_returns (file : File) : beginReturns sampleOpts file.
Proof. intros callback [= <-]. reflexivity. Qed.

(** ** The call *)

(** The generator throws where it builds its request. *)
Lemma uploadFiles_dies (fuel : nat) (env : Env) (endpoint : string)
    (opts : UploadFilesOptions) (w : World) :
  uploadFiles fuel env endpoint opts w = Some (Failure (Die TypeError), w).
Proof. reflexivity. Qed.

(** Every call ends in the defect, logged. *)
Lemma DANGEROUS__uploadFiles_dies (fuel : nat) (env : Env)
    (endpoint : string) (opts : UploadFilesOptions) (w : World) :
  DANGEROUS__uploadFiles fuel env endpoint opts w
  = Some (Failure (Die TypeError), emit (EvLogError (Die TypeError)) w).
Proof. reflexivity. Qed.

(** The aggregation stops at a pipeline that fails. *)
Lemma all_cons_fails {A} (e : Eff A) (es : list (Eff A)) (c : Cause)
    (w w1 : World) :
  e w = Some (Failure c, w1) ->
  all (e :: es) w = Some (Failure c, w1).
Proof. intros He. cbn [all]. unfold andThen at 1. by rewrite He. Qed.

(** ** Matching files and descriptors *)

(** X5.  A descriptor is matched by the exact name of a file, and the
    first file of that name wins; there is no match exactly when no
    supplied file has the name. *)
Theorem findFile_first (opts : UploadFilesOptions) (presigned : Presigned) :
  (forall file,
     findFile opts presigned = Some file
     <-> exists before after,
           files opts = before ++ file :: after
           /\ name file = fileName (baseOf presigned)
           /\ Forall (fun f => name f <> fileName (baseOf presigned)) before)
  /\ (findFile opts presigned = None
      <-> Forall (fun f => name f <> fileName (baseOf presigned)) (files opts)).
Proof.
  unfold findFile. induction (files opts) as [|f fs [IHsome IHnone]].
  - split; [intros file; split|split].
    + done.
    + intros (before & after & Heq & _). by destruct before.
    + intros _. constructor.
    + done.
  - cbn [List.find]. case_bool_decide as Hname.
    + split; [intros file; split|split].
      * intros [= ->]. exists [], fs. by repeat split.
      * intros (before & after & Heq & Hn & Hall).
        destruct before as [|g before].
        -- by injection Heq as ->.
        -- injection Heq as -> _. by apply Forall_cons in Hall as [? _].
      * done.
      * intros Hall. by apply Forall_cons in Hall as [? _].
    + split; [intros file; split|split].
      * intros (before & after & -> & Hn & Hall)%IHsome.
        exists (f :: before), after. repeat split; try done.
        by constructor.
      * intros (before & after & Heq & Hn & Hall).
        destruct before as [|g before].
        -- injection Heq as -> _. done.
        -- injection Heq as -> Heq. apply Forall_cons in Hall as [_ Hall].
           apply IHsome. by exists before, after.
      * intros Hfs%IHnone. by constructor.
      * intros Hall. apply Forall_cons in Hall as [_ Hall]. by apply IHnone.
Qed.

Lemma findFile_name (opts : UploadFilesOptions) (presigned : Presigned)
    (file : File) :
  findFile opts presigned = Some file ->
  name file = fileName (baseOf presigned).
Proof.
  intros Hf. apply (proj1 (findFile_first opts presigned)) in Hf.
  by destruct Hf as (_ & _ & _ & Hn & _).
Qed.



(** ** Action types and hooks *)

(** X11.  [isActionType] holds of the three strings ["upload"],
    ["failure"] and ["multipart-complete"] and of nothing else,
    [isUploadThingHook] only of ["callback"]; no value is both. *)
Theorem isActionType_isUploadThingHook (input : Json) :
  (isActionType input = true
   <-> input = JString "upload" \/ input = JString "failure"
       \/ input = JString "multipart-complete")
  /\ (isUploadThingHook input = true <-> input = JString "callback")
  /\ ~ (isActionType input = true /\ isUploadThingHook input = true).
Proof.
  assert (Ha : isActionType input = true
   <-> input = JString "upload" \/ input = JString "failure"
       \/ input = JString "multipart-complete").
  { unfold isActionType, VALID_ACTION_TYPES.
    destruct input as [| | |s| |];
      try (split; [done|intros [?|[?|?]]; discriminate]).
    rewrite bool_decide_eq_true, !elem_of_cons, elem_of_nil.
    split.
    - intros [->|[->|[->|[]]]]; auto.
    - intros [[= ->]|[[= ->]|[= ->]]]; auto. }
  assert (Hh : isUploadThingHook input = true <-> input = JString "callback").
  { unfold isUploadThingHook, VALID_UT_HOOKS.
    destruct input as [| | |s| |]; try (split; [done|discriminate]).
    rewrite bool_decide_eq_true, elem_of_cons, elem_of_nil.
    split.
    - intros [->|[]]; auto.
    - intros [= ->]; auto. }
  split; [done|]. split; [done|].
  rewrite Ha, Hh. intros [[->|[->| ->]] [=]].
Qed.

(** ** What the pipeline polls *)

(** C1.  The claim is that the poller of a file, answered
    [still waiting] [k] times and then [done], issues [k + 1] polls
    and returns the payload.  The code does not: [uploadFile] hands
    the polling URL to [fetchEffJson] where the schema belongs, so for
    every [k] and every payload the pipeline of [a.png] ends in the
    defect [TypeError] after the transport and the delay, having
    issued no poll, and returns no payload. *)
Theorem C1_no_poll (fuel k : nat) (callbackData : Json) :
  uploadFile fuel
    (serverEnv (doneAfter k callbackData) nobody [presignedA])
    "imageUploader" sampleOpts presignedA start
  = Some (Failure (Die TypeError), delayedA)
  /\ fetchCount "https://poll.example/a" (log delayedA) = 0.
Proof. split; vm_compute; reflexivity. Qed.

(** C2.  The claim is that a file whose polling endpoint keeps
    answering [still waiting] past a minute fails with a timeout
    error.  The code does not poll: whatever the latency of the
    endpoint, the pipeline ends in the defect [TypeError] 600 ms after
    its start, the schedule is never stepped and no request is
    issued. *)
Theorem C2_no_timeout (fuel : nat) (latency : N) :
  uploadFile fuel (serverEnv (neverDone latency) nobody [presignedA])
    "imageUploader" sampleOpts presignedA start
  = Some (Failure (Die TypeError), delayedA)
  /\ now delayedA = 600%N
  /\ Forall (fun e => forall input init, e.2 <> EvFetch input init)
       (log delayedA).
Proof.
  split; [vm_compute; reflexivity|]. split; [reflexivity|].
  repeat (apply Forall_cons; split; [intros input init [=]|]).
  apply Forall_nil_2.
Qed.

(** C5.  The claim is that a poll response that decodes as neither
    shape fails the pipeline with a protocol error, without a retry.
    The code never reads a response: whatever the endpoint answers,
    the pipeline ends in the same defect [TypeError], no failure of
    the decoder is raised and no poll is issued. *)
Theorem C5_response_unread (fuel : nat) (r : Response) :
  uploadFile fuel (serverEnv (always r) nobody [presignedA])
    "imageUploader" sampleOpts presignedA start
  = Some (Failure (Die TypeError), delayedA)
  /\ uploadFile fuel (serverEnv (always r) nobody [presignedA])
       "imageUploader" sampleOpts presignedA start
     = uploadFile fuel (serverEnv (always failedBody) nobody [presignedA])
         "imageUploader" sampleOpts presignedA start.
Proof. split; vm_compute; reflexivity. Qed.




(** ** The batch *)

(** C3.  The claim is that a batch returns the records of its files
    in the order of the descriptors when every pipeline succeeds.
    The code returns no list: [DANGEROUS__uploadFiles] hands the URL
    of the API to [fetchEffJson] where the schema belongs, so every
    call ends in the defect [TypeError] before a request is issued
    and before a pipeline is started; all it does is log the cause. *)
Theorem C3_batch_dies (fuel : nat) (env : Env) (endpoint : string)
    (opts : UploadFilesOptions) (w : World) :
  DANGEROUS__uploadFiles fuel env endpoint opts w
  = Some (Failure (Die TypeError), emit (EvLogError (Die TypeError)) w)
  /\ (forall results w',
        DANGEROUS__uploadFiles fuel env endpoint opts w
        <> Some (Success results, w'))
  /\ uploadFiles fuel env endpoint opts w = Some (Failure (Die TypeError), w).
Proof.
  split; [apply DANGEROUS__uploadFiles_dies|]. split; [|apply uploadFiles_dies].
  intros results w'. by rewrite DANGEROUS__uploadFiles_dies.
Qed.

(** C6.  The claim is that a descriptor whose file name matches no
    file fails the call with a not-found error.  The pipeline of such
    a descriptor does fail with [NOT_FOUND], after an error on the
    console and without a transport or a poll; but the call never
    runs it: it ends in the defect [TypeError] before the descriptors
    are fetched. *)
Theorem C6_not_found_unreached (fuel : nat) (env : Env)
    (endpoint : string) (opts : UploadFilesOptions) (presigned : Presigned)
    (w : World) :
  findFile opts presigned = None ->
  uploadFile fuel env endpoint opts presigned w
  = Some (Failure (Fail (notFound presigned (files opts))),
          emit (EvConsoleError "No file found for presigned URL" presigned) w)
  /\ DANGEROUS__uploadFiles fuel env endpoint opts w
     = Some (Failure (Die TypeError), emit (EvLogError (Die TypeError)) w).
Proof.
  intros Hfind. split.
  - by apply uploadFile_notFound.
  - apply DANGEROUS__uploadFiles_dies.
Qed.

(** The server hands out a descriptor for [c.png]; the files are
    [a.png] and [b.png]. *)
Lemma C6_not_found_unreached_witness :
  uploadFile 0 (serverEnv (doneAfter 0 (JNumber 7)) nobody [presignedC])
    "imageUploader" sampleOpts presignedC start
  = Some (Failure (Fail (notFound presignedC [fileA; fileB])),
          emit (EvConsoleError "No file found for presigned URL" presignedC)
            start)
  /\ DANGEROUS__uploadFiles 0
       (serverEnv (doneAfter 0 (JNumber 7)) nobody [presignedC])
       "imageUploader" sampleOpts start
     = Some (Failure (Die TypeError),
             emit (EvLogError (Die TypeError)) start).
Proof.
  apply (C6_not_found_unreached 0
           (serverEnv (doneAfter 0 (JNumber 7)) nobody [presignedC])
           "imageUploader" sampleOpts presignedC start).
  reflexivity.
Defined.

(** C7.  In a batch of two files of which one has a transport that
    fails, the call fails, no list of results is returned and the
    file whose transport succeeds is not polled.  The pipelines run
    one after the other: when the transport of the first fails, the
    aggregation ends with that failure in the world in which the
    transport ended; when it succeeds, the pipeline of the first ends
    after its delay in the defect [TypeError] without a poll; either
    way the second pipeline is not started.  The call itself ends in
    that defect before it starts a pipeline. *)
Theorem C7_two_files (fuel : nat) (env : Env) (endpoint : string)
    (opts : UploadFilesOptions) (p1 p2 : Presigned) (file1 : File)
    (w : World) :
  findFile opts p1 = Some file1 ->
  beginReturns opts file1 ->
  (forall c w1,
     (if has_urls p1
      then uploadMultipartWithProgress env file1 p1 endpoint opts
      else uploadPresignedPostWithProgress env file1 p1 opts)
       (begun opts file1 w) = Some (Failure c, w1) ->
     all (List.map (fun presigned => uploadFile fuel env endpoint opts presigned)
            [p1; p2]) w
     = Some (Failure c, w1))
  /\ (forall w1,
        (if has_urls p1
         then uploadMultipartWithProgress env file1 p1 endpoint opts
         else uploadPresignedPostWithProgress env file1 p1 opts)
          (begun opts file1 w) = Some (Success tt, w1) ->
        all (List.map
               (fun presigned => uploadFile fuel env endpoint opts presigned)
               [p1; p2]) w
        = Some (Failure (Die TypeError), advance 500 (emit (EvSleep 500) w1)))
  /\ (forall results w',
        all (List.map
               (fun presigned => uploadFile fuel env endpoint opts presigned)
               [p1; p2]) w
        <> Some (Success results, w'))
  /\ DANGEROUS__uploadFiles fuel env endpoint opts w
     = Some (Failure (Die TypeError), emit (EvLogError (Die TypeError)) w).
Proof.
  intros Hfind Hret.
  pose proof (uploadFile_found fuel env endpoint opts p1 file1 w Hfind Hret)
    as Hrun.
  split; [|split; [|split]].
  - intros c w1 Htransport. cbn [List.map]. apply all_cons_fails.
    by rewrite Hrun, Htransport.
  - intros w1 Htransport. cbn [List.map]. apply all_cons_fails.
    by rewrite Hrun, Htransport.
  - intros results w'. cbn [List.map all]. unfold andThen at 1.
    rewrite Hrun. unfold afterTransport. by repeat case_match.
  - apply DANGEROUS__uploadFiles_dies.
Qed.

(** Two batches of [a.png] and [b.png]: in the first the transport of
    [a.png] fails, in the second that of [b.png]; in both, the log
    holds no request and nothing of [b.png]. *)
Lemma C7_two_files_witness :
  (all (List.map
          (fun presigned =>
             uploadFile 0
               (serverEnv (doneAfter 0 (JNumber 7)) "a.png"
                  [presignedA; presignedB])
               "imageUploader" sampleOpts presigned)
          [presignedA; presignedB]) start
   = Some (Failure (Fail uploadFailed),
           mkWorld 100 [(0%N, EvUploadBegin "a.png");
                        (0%N, EvTransport SinglePart fileA presignedA)]))
  /\ (all (List.map
             (fun presigned =>
                uploadFile 0
                  (serverEnv (doneAfter 0 (JNumber 7)) "b.png"
                     [presignedA; presignedB])
                  "imageUploader" sampleOpts presigned)
             [presignedA; presignedB]) start
      = Some (Failure (Die TypeError),
              advance 500
                (emit (EvSleep 500)
                   (mkWorld 100
                      [(0%N, EvUploadBegin "a.png");
                       (0%N, EvTransport SinglePart fileA presignedA)])))).
Proof.
  split.
  - apply (proj1 (C7_two_files 0
                    (serverEnv (doneAfter 0 (JNumber 7)) "a.png"
                       [presignedA; presignedB])
                    "imageUploader" sampleOpts presignedA presignedB fileA
                    start eq_refl (sampleOpts_returns fileA))).
    vm_compute. reflexivity.
  - apply (proj1 (proj2 (C7_two_files 0
                    (serverEnv (doneAfter 0 (JNumber 7)) "b.png"
                       [presignedA; presignedB])
                    "imageUploader" sampleOpts presignedA presignedB fileA
                    start eq_refl (sampleOpts_returns fileA)))).
    vm_compute. reflexivity.
Defined.

(** ** The transport of a file *)

(** C10.  A descriptor of the shape with [urls] is given to the
    multipart transport, with the slug and the options, every other
    one to the transport of the presigned POST; the transport runs in
    the world in which the callback [onUploadBegin], when there is
    one, has been called with the name of the file, and what follows
    is decided by its outcome alone.  A callback that throws ends the
    pipeline before either transport is called. *)
Theorem C10_transport_selection (fuel : nat) (env : Env) (slug : string)
    (opts : UploadFilesOptions) (presigned : Presigned) (file : File)
    (w : World) :
  findFile opts presigned = Some file ->
  (beginReturns opts file ->
   (forall base mpu,
      presigned = MPU base mpu ->
      uploadFile fuel env slug opts presigned w
      = afterTransport
          (uploadMultipartWithProgress env file presigned slug opts
             (begun opts file w)))
   /\ (forall base psp,
         presigned = PSP base psp ->
         uploadFile fuel env slug opts presigned w
         = afterTransport
             (uploadPresignedPostWithProgress env file presigned opts
                (begun opts file w))))
  /\ (forall callback,
        onUploadBegin opts = Some callback ->
        begun opts file w = emit (EvUploadBegin (name file)) w)
  /\ (forall callback e,
        onUploadBegin opts = Some callback ->
        callback (name file) = Some e ->
        uploadFile fuel env slug opts presigned w
        = Some (Failure (Die e), emit (EvUploadBegin (name file)) w)).
Proof.
  intros Hfind. split; [|split].
  - intros Hret. split.
    + intros base mpu ->.
      by rewrite (uploadFile_found _ _ _ _ _ _ _ Hfind Hret).
    + intros base psp ->.
      by rewrite (uploadFile_found _ _ _ _ _ _ _ Hfind Hret).
  - intros callback Hcb. unfold begun. by rewrite Hcb.
  - intros callback e Hcb He.
    by apply (uploadFile_begin_throws _ _ _ _ _ _ callback).
Qed.

(** The descriptor of [b.png] has [urls], that of [a.png] has not;
    the callback of the sample options returns, that of
    [throwingOpts] throws. *)
Lemma C10_transport_selection_witness :
  uploadFile 0 (serverEnv (doneAfter 0 (JNumber 7)) nobody [presignedB])
    "imageUploader" sampleOpts presignedB start
  = afterTransport
      (sampleTransport MultiPart nobody fileB presignedB
         (emit (EvUploadBegin "b.png") start))
  /\ uploadFile 0 (serverEnv (doneAfter 0 (JNumber 7)) nobody [presignedA])
       "imageUploader" sampleOpts presignedA start
     = afterTransport
         (sampleTransport SinglePart nobody fileA presignedA
            (emit (EvUploadBegin "a.png") start))
  /\ uploadFile 0 (serverEnv (doneAfter 0 (JNumber 7)) nobody [presignedA])
       "imageUploader" throwingOpts presignedA start
     = Some (Failure (Die callbackError), emit (EvUploadBegin "a.png") start).
Proof.
  split; [|split].
  - apply (proj1 (proj1 (C10_transport_selection 0
                           (serverEnv (doneAfter 0 (JNumber 7)) nobody
                              [presignedB])
                           "imageUploader" sampleOpts presignedB fileB start
                           eq_refl)
                    (sampleOpts_returns fileB))
             (baseOf presignedB) (mkMPU ["https://bucket.example/b/1"]
                                    "uploadB" 5 1)).
    reflexivity.
  - apply (proj2 (proj1 (C10_transport_selection 0
                           (serverEnv (doneAfter 0 (JNumber 7)) nobody
                              [presignedA])
                           "imageUploader" sampleOpts presignedA fileA start
                           eq_refl)
                    (sampleOpts_returns fileA))
             (baseOf presignedA) (mkPSP "https://bucket.example/a" ∅)).
    reflexivity.
  - apply (proj2 (proj2 (C10_transport_selection 0
                           (serverEnv (doneAfter 0 (JNumber 7)) nobody
                              [presignedA])
                           "imageUploader" throwingOpts presignedA fileA start
                           eq_refl))
             (fun _ => Some callbackError) callbackError);
      reflexivity.
Defined.

(** ** Sample runs *)

(** The pipeline of [b.png]: the callback, the multipart transport,
    the delay, the defect. *)
Example uploadFile_multipart_run :
  uploadFile 0 (serverEnv (doneAfter 0 (JNumber 7)) nobody [presignedB])
    "imageUploader" sampleOpts presignedB start
  = Some (Failure (Die TypeError),
          mkWorld 600
            [(0%N, EvUploadBegin "b.png");
             (0%N, EvTransport MultiPart fileB presignedB);
             (100%N, EvSleep 500)]).
Proof. vm_compute. reflexivity. Qed.

(** The pipeline of [a.png] with a transport that fails. *)
Example uploadFile_transport_fails_run :
  uploadFile 0 (serverEnv (doneAfter 0 (JNumber 7)) "a.png" [presignedA])
    "imageUploader" sampleOpts presignedA start
  = Some (Failure (Fail uploadFailed),
          mkWorld 100
            [(0%N, EvUploadBegin "a.png");
             (0%N, EvTransport SinglePart fileA presignedA)]).
Proof. vm_compute. reflexivity. Qed.

(** A call for the two files. *)
Example DANGEROUS__uploadFiles_run :
  DANGEROUS__uploadFiles 0
    (serverEnv (doneAfter 0 (JNumber 7)) nobody [presignedA; presignedB])
    "imageUploader" sampleOpts start
  = Some (Failure (Die TypeError),
          mkWorld 0 [(0%N, EvLogError (Die TypeError))]).
Proof. vm_compute. reflexivity. Qed.

(** The poll that [uploadFile] means to issue, built as
    [fetchEffJson] is declared: one request with the token of the
    descriptor, decoded as [done]. *)
Example fetchEffJson_declared_order_run :
  built (fetchEffJson
           (serverEnv (doneAfter 0 (JNumber 7)) nobody [presignedA])
           (VSchema PollingResponse_schema)
           (VString "https://poll.example/a") (pollingInit presignedA))
    start
  = Some (Success (PollDone (Some (JNumber 7))),
          mkWorld 0
            [(0%N, EvFetch "https://poll.example/a"
                     (mkInit None [("authorization", "jwtA")] None))]).
Proof. vm_compute. reflexivity. Qed.

(** [S.any] accepts a [done] response without [callbackData]. *)
Example PollingResponse_schema_done_without_data :
  PollingResponse_schema (JObject {[ "status" := JString "done" ]})
  = Some (PollDone None).
Proof. vm_compute. reflexivity. Qed.

(** The body of the opening request has no [input] when the option
    is [undefined]. *)
Example uploadRequestBody_input_undefined :
  uploadRequestBody
    (mkOpts None None [fileA] "https://app.example/api/uploadthing"
       "@uploadthing/react" (Input None))
  = JObject {[ "files" :=
                 JArray [JObject {[ "name" := JString "a.png";
                                    "size" := JNumber 3 ]}] ]}.
Proof. vm_compute. reflexivity. Qed.
